(** * quizi: the tRPC procedures of [src/server/api/trpc.ts]

  A shallow embedding of the request context, of the three middleware
  steps ([privateProcedure], [quizStartProcedure], [quizProcedure]) and of
  the way tRPC chains them, with the cookie jar, the database tables, the
  per-call context object and a log of the external interactions kept in
  an explicit world that a small state-and-error monad threads through. *)

From Stdlib Require Import ZArith.
From stdpp Require Import gmap strings list.

Local Open Scope string_scope.

(** ** Rows of the two tables (the shapes declared in [CreateContextOptions])

  [score] is a [number] in the source; nothing here computes with it. *)

Module Quiz.
Record t := mk { id : string; name : string }.
End Quiz.

Module Entry.
Record t := mk {
  id : string;
  name : string;
  quizID : string;
  lastname : string;
  class : string;
  score : Z
}.
End Entry.

(** ** The request context

  [createInnerTRPCContext] returns an object with the four fields [req],
  [db], [entry] and [quiz]; the last two are optional. *)

Module Ctx.
Record t (NextRequest Database : Type) := mk {
  req : NextRequest;
  db : Database;
  entry : option Entry.t;
  quiz : option Quiz.t
}.
Arguments mk {NextRequest Database} _ _ _ _.
Arguments req {NextRequest Database} _.
Arguments db {NextRequest Database} _.
Arguments entry {NextRequest Database} _.
Arguments quiz {NextRequest Database} _.
End Ctx.

(** ** Errors thrown by the middleware: [new TRPCError({code, message})] *)

Inductive TRPC_ERROR_CODE := BAD_REQUEST | UNAUTHORIZED.

Record TRPCError := { code : TRPC_ERROR_CODE; message : string }.

(** The object [cookies().get(name)] returns when the cookie exists. *)
Record RequestCookie := { cookie_name : string; value : string }.

(** The contents of one database: the rows of its two tables, in the order
  a [select] returns them. *)
Record Store := { quizRows : list Quiz.t; entryRows : list Entry.t }.

(** A table object of [../db/schema], as far as this module uses it: its
  name, the rows it denotes in a store, and its [id] column. *)
Record Table (Row : Type) := {
tbl_name : string;
tbl_rows : Store -> list Row;
tbl_id : Row -> string
}.
Arguments tbl_name {Row} _.
Arguments tbl_rows {Row} _ _.
Arguments tbl_id {Row} _ _.

Definition Quizes : Table Quiz.t :=
{| tbl_name := "Quizes"; tbl_rows := quizRows; tbl_id := Quiz.id |}.

Definition Entries : Table Entry.t :=
{| tbl_name := "Entries"; tbl_rows := entryRows; tbl_id := Entry.id |}.

(** External interactions of a call, logged in the order they happen. *)
Inductive Event :=
| CookieGet (name : string)
| CookieDelete (name : string)
| Verify (token : string)
| Select (table : string) (id : string).

Section TRPC.

(** The request handle, the database client type, the module-level client
    [db] of [~/server/db] and the verifier [VerifyJWT] of [~/jwt] are
    imported by the source; they are parameters here. *)
Context {NextRequest Database : Type}.
Variable db : Database.
Variable VerifyJWT : string -> bool.

Abbreviation Context := (Ctx.t NextRequest Database).

(** *** 1. Context *)

Record CreateContextOptions := {
  opts_req : NextRequest;
  opts_entry : option Entry.t;
  opts_quiz : option Quiz.t
}.

Definition createInnerTRPCContext (opts : CreateContextOptions) : Context :=
  Ctx.mk (opts_req opts) db (opts_entry opts) (opts_quiz opts).

(** The object literal [{ req: opts.req }] leaves [entry] and [quiz]
    undefined. *)
Definition createTRPCContext (req : NextRequest) : Context :=
  createInnerTRPCContext
    {| opts_req := req; opts_entry := None; opts_quiz := None |}.

(** *** The world of one call

    [cookieJar] is what [cookies()] reads and deletes from, [dbState] gives
    the contents behind every database client, [ctx] is the context object
    of the call (the middleware assigns to its fields in place and
    [opts.next()] passes the same object on), [trace] is the log. *)
Record World := {
  cookieJar : gmap string string;
  dbState : Database -> Store;
  ctx : Context;
  trace : list Event
}.

Definition log (ev : Event) (w : World) : World :=
  {| cookieJar := cookieJar w; dbState := dbState w; ctx := ctx w;
     trace := (trace w ++ [ev])%list |}.

(** A computation either throws a [TRPCError] or returns; the world
    survives a throw (a deleted cookie stays deleted). *)
Definition M (A : Type) : Type := World -> World * (TRPCError + A).

Definition ret {A} (a : A) : M A := fun w => (w, inr a).

Definition bind {A B} (m : M A) (f : A -> M B) : M B :=
  fun w =>
    match m w with
    | (w', inl e) => (w', inl e)
    | (w', inr a) => f a w'
    end.

Definition throw {A} (e : TRPCError) : M A := fun w => (w, inl e).

Notation "x <- m ;; k" := (bind m (fun x => k))
  (at level 100, m at next level, right associativity).
Notation "m ;;; k" := (bind m (fun _ => k))
  (at level 100, right associativity).

(** [cookies().get(name)] *)
Definition cookies_get (name : string) : M (option RequestCookie) :=
  fun w =>
    (log (CookieGet name) w,
     inr ((fun v => {| cookie_name := name; value := v |})
            <$> cookieJar w !! name)).

(** [cookies().delete(name)]: the response expires the cookie, so the jar
    afterwards is the one the client presents on its next request.  No
    path of this module reads a cookie after deleting it. *)
Definition cookies_delete (name : string) : M unit :=
  fun w =>
    ({| cookieJar := delete name (cookieJar w); dbState := dbState w;
        ctx := ctx w; trace := (trace w ++ [CookieDelete name])%list |},
     inr tt).

(** [await VerifyJWT(token)] *)
Definition await_VerifyJWT (token : string) : M bool :=
  fun w => (log (Verify token) w, inr (VerifyJWT token)).

(** [opts.ctx] *)
Definition opts_ctx : M Context := fun w => (w, inr (ctx w)).

(** [await d.select().from(T).where(eq(T.id, v))]: the rows of [T] whose
    [id] is [v]. *)
Definition select_from_where_eq_id {Row} (d : Database) (T : Table Row)
    (v : string) : M (list Row) :=
  fun w =>
    (log (Select (tbl_name T) v) w,
     inr (filter (fun r => tbl_id T r = v) (tbl_rows T (dbState w d)))).

(** The world after the assignment [c.quiz = q] to the context object. *)
Definition set_quiz (q : Quiz.t) (w : World) : World :=
  {| cookieJar := cookieJar w; dbState := dbState w;
     ctx := Ctx.mk (Ctx.req (ctx w)) (Ctx.db (ctx w))
                   (Ctx.entry (ctx w)) (Some q);
     trace := trace w |}.

(** The world after the assignment [c.entry = e] to the context object. *)
Definition set_entry (e : Entry.t) (w : World) : World :=
  {| cookieJar := cookieJar w; dbState := dbState w;
     ctx := Ctx.mk (Ctx.req (ctx w)) (Ctx.db (ctx w))
                   (Some e) (Ctx.quiz (ctx w));
     trace := trace w |}.

(** [opts.ctx.quiz = quiz] *)
Definition assign_ctx_quiz (q : Quiz.t) : M unit :=
  fun w => (set_quiz q w, inr tt).

(** [opts.ctx.entry = entry] *)
Definition assign_ctx_entry (e : Entry.t) : M unit :=
  fun w => (set_entry e w, inr tt).

(** *** 3. Router and procedure

    A middleware receives [opts.next] (the rest of the chain, ending in
    the resolver) and is generic in the resolver's result.  A procedure
    builder is the list of its middlewares in the order of the [.use]
    calls; calling the procedure runs the first middleware with the rest
    of the chain as its [next]. *)
Definition Middleware : Type := forall A : Type, M A -> M A.

Definition Procedure : Type := list Middleware.

Definition use (p : Procedure) (m : Middleware) : Procedure :=
  (p ++ [m])%list.

Definition invoke {A} (p : Procedure) (resolver : M A) : M A :=
  foldr (fun (m : Middleware) (next : M A) => m A next) resolver p.

Definition publicProcedure : Procedure := [].

Definition privateProcedure : Procedure :=
  use publicProcedure (fun A next =>
    cookie <- cookies_get "Authorization" ;;
    match cookie with
    | None =>
        throw {| code := UNAUTHORIZED; message := "Authorization missing" |}
    | Some cookie =>
        ok <- await_VerifyJWT (value cookie) ;;
        if ok then next
        else
          (cookies_delete "Authorization" ;;;
           throw {| code := UNAUTHORIZED;
                    message := "Authorization incorrect" |})
    end).

Definition quizStartProcedure : Procedure :=
  use publicProcedure (fun A next =>
    cookie <- cookies_get "quizID" ;;
    match cookie with
    | None => throw {| code := BAD_REQUEST; message := "Quiz missing" |}
    | Some cookie =>
        c <- opts_ctx ;;
        rows <- select_from_where_eq_id (Ctx.db c) Quizes (value cookie) ;;
        match head rows with
        | Some quiz => assign_ctx_quiz quiz ;;; next
        | None =>
            throw {| code := BAD_REQUEST; message := "Quiz incorrect" |}
        end
    end).

Definition quizProcedure : Procedure :=
  use quizStartProcedure (fun A next =>
    cookie <- cookies_get "entryID" ;;
    match cookie with
    | None => throw {| code := BAD_REQUEST; message := "Entry missing" |}
    | Some cookie =>
        c <- opts_ctx ;;
        rows <- select_from_where_eq_id (Ctx.db c) Entries (value cookie) ;;
        match head rows with
        | Some entry => assign_ctx_entry entry ;;; next
        | None =>
            throw {| code := BAD_REQUEST; message := "Quiz incorrect" |}
        end
    end).

(** *** Vocabulary of the statements *)

(** The contents of the database the call's context points to. *)
Definition store_of (w : World) : Store := dbState w (Ctx.db (ctx w)).

(** [r] is a row of table [T] in that database. *)
Definition stored {Row} (T : Table Row) (w : World) (r : Row) : Prop :=
  r ∈ tbl_rows T (store_of w).

(** No row of [T] has the id [v]. *)
Definition no_row_with_id {Row} (T : Table Row) (w : World) (v : string)
    : Prop :=
  forall r, stored T w r -> tbl_id T r <> v.

(** Modelled from the spec: the schema ([../db/schema]) that declares the
    tables is not among the sources; the data model gives every Quiz and
    every Entry a unique identifier, so no two rows of a table share their
    [id]. *)
Definition primary_key {Row} (T : Table Row) (w : World) : Prop :=
  NoDup (tbl_id T <$> tbl_rows T (store_of w)).

(** A resolver that hands back the quiz the chain resolved. *)
Definition resolved_quiz : M (option Quiz.t) :=
  c <- opts_ctx ;; ret (Ctx.quiz c).

(** A store with the quizzes ["Q1"] and ["Q2"] and one entry, which belongs
    to ["Q2"]; the cookies name the quiz ["Q1"] and that entry, and the
    context is the one [createTRPCContext] builds for the request. *)
Definition stray_quiz : Quiz.t := Quiz.mk "Q1" "Algebra".

Definition stray_entry : Entry.t :=
  Entry.mk "E7" "Grace" "Q2" "Hopper" "2B" 0.

Definition stray_world (req : NextRequest) : World :=
  {| cookieJar := {[ "quizID" := "Q1"; "entryID" := "E7" ]};
     dbState := fun _ =>
       {| quizRows := [stray_quiz; Quiz.mk "Q2" "Geometry"];
          entryRows := [stray_entry] |};
     ctx := createTRPCContext req;
     trace := [] |}.

End TRPC.

(** ** A concrete deployment, for the examples

    Requests are named by a string, there is one database client, and the
    verifier accepts exactly the token ["good"]. *)

Definition demo_verifier (token : string) : bool :=
  bool_decide (token = "good").

Definition demo_quiz : Quiz.t := Quiz.mk "Q1" "Algebra".

Definition demo_entry : Entry.t :=
  Entry.mk "E1" "Ada" "Q1" "Lovelace" "3A" 0.

Definition demo_store : Store :=
  {| quizRows := [demo_quiz]; entryRows := [demo_entry] |}.

Definition demo_world (jar : gmap string string) : @World string unit :=
  {| cookieJar := jar;
     dbState := fun _ => demo_store;
     ctx := createTRPCContext tt "POST /api/trpc";
     trace := [] |}.

(** A deployment whose Quizes table lists two rows under the id ["Q1"],
    and whose Entries table lists two rows under the id ["E1"]. *)
Definition dup_store : Store :=
  {| quizRows := [Quiz.mk "Q0" "Warm-up"; Quiz.mk "Q1" "Algebra";
                  Quiz.mk "Q1" "Geometry"];
     entryRows := [Entry.mk "E1" "Ada" "Q1" "Lovelace" "3A" 0;
                   Entry.mk "E1" "Alan" "Q1" "Turing" "3B" 7] |}.

Definition dup_world (jar : gmap string string) : @World string unit :=
  {| cookieJar := jar;
     dbState := fun _ => dup_store;
     ctx := createTRPCContext tt "POST /api/trpc";
     trace := [] |}.

(** ** 2. Initialization: the error formatter

    [shape] is tRPC's error shape: a message, a numeric code and the [data]
    object, whose keys are kept as a finite map.  The values of [data] are
    [null], a flattened Zod error, or anything else. *)

Module Shape.
Record t (V : Type) := mk {
  message : string;
  code : Z;
  data : gmap string V
}.
Arguments mk {V} _ _ _.
Arguments message {V} _.
Arguments code {V} _.
Arguments data {V} _.
End Shape.

Inductive DataValue (Flattened Json : Type) :=
| JsNull
| JsFlattened (f : Flattened)
| JsOther (v : Json).
Arguments JsNull {Flattened Json}.
Arguments JsFlattened {Flattened Json} f.
Arguments JsOther {Flattened Json} v.

(** [error.cause]: an instance of [ZodError], or anything else (another
    error, or nothing). *)
Inductive ErrorCause (ZodError : Type) :=
| CauseZodError (z : ZodError)
| CauseOther.
Arguments CauseZodError {ZodError} z.
Arguments CauseOther {ZodError}.

Section Formatter.

(** [ZodError] and its method [flatten] belong to the zod library. *)
Context {ZodError Flattened Json : Type}.
Variable flatten : ZodError -> Flattened.

(** The argument [{ shape, error }], of which [error.cause] alone is read. *)
Record FormatterOpts := {
  shape : Shape.t (DataValue Flattened Json);
  error_cause : ErrorCause ZodError
}.

(** [{ ...shape, data: { ...shape.data, zodError: ... } }]: the spread
    copies every key, then [zodError] is set. *)
Definition errorFormatter (opts : FormatterOpts)
    : Shape.t (DataValue Flattened Json) :=
  Shape.mk (Shape.message (shape opts)) (Shape.code (shape opts))
    (<[ "zodError" :=
          match error_cause opts with
          | CauseZodError z => JsFlattened (flatten z)
          | CauseOther => JsNull
          end ]> (Shape.data (shape opts))).

End Formatter.

(** ** The client's logger link

    [enabled] is asked for every operation going up (the request) and
    coming down (its result, an [Error] or data); [process.env.NODE_ENV]
    may be unset. *)

Inductive OperationResult := ResultError | ResultData.

Inductive LoggerOp :=
| OpUp
| OpDown (result : OperationResult).

Definition result_instanceof_Error (r : OperationResult) : bool :=
  match r with ResultError => true | ResultData => false end.

Definition loggerLink_enabled (NODE_ENV : option string) (op : LoggerOp)
    : bool :=
  bool_decide (NODE_ENV = Some "development")
  || match op with
     | OpDown r => result_instanceof_Error r
     | OpUp => false
     end.

(** A formatter whose [flatten] keeps the list of issues, and a shape that
    already carries a [zodError] key. *)
Definition demo_flatten (issues : list string) : list string := issues.

Definition demo_shape : Shape.t (DataValue (list string) string) :=
  Shape.mk "Invalid input" (-32600)
    {[ "code" := JsOther "BAD_REQUEST"; "zodError" := JsOther "stale" ]}.

(** ** Facts about [head] of a [filter]: what [rows[0]] is *)

Section FirstMatch.

Context {Row : Type} (key : Row -> string).

Lemma head_filter_None (v : string) (l : list Row) :
  (forall r, r ∈ l -> key r <> v) ->
  head (filter (fun r => key r = v) l) = None.
Proof.
  induction l as [|x l IH]; intros Hno; [reflexivity|].
  rewrite filter_cons. destruct (decide (key x = v)) as [Hx|Hx].
  - exfalso. apply (Hno x); [left | exact Hx].
  - apply IH. intros r Hr. apply Hno. right. exact Hr.
Qed.

Lemma head_filter_Some (v : string) (l : list Row) (x : Row) :
  head (filter (fun r => key r = v) l) = Some x ->
  x ∈ l /\ key x = v.
Proof.
  induction l as [|y l IH]; [discriminate|].
  rewrite filter_cons. destruct (decide (key y = v)) as [Hy|Hy]; simpl.
  - intros [= <-]. split; [left | exact Hy].
  - intros H. destruct (IH H) as [Hin Hk]. split; [right; exact Hin | exact Hk].
Qed.

Lemma head_filter_is_Some (v : string) (l : list Row) (x : Row) :
  x ∈ l -> key x = v ->
  exists y, head (filter (fun r => key r = v) l) = Some y.
Proof.
  intros Hin Hk.
  destruct (head (filter (fun r => key r = v) l)) as [y|] eqn:E; [eauto|].
  exfalso. revert E. induction Hin as [x l | x y l Hin IH].
  - rewrite filter_cons. destruct (decide (key x = v)); [discriminate | contradiction].
  - rewrite filter_cons. destruct (decide (key y = v)); [discriminate | exact (IH Hk)].
Qed.

Lemma head_filter_unique (l : list Row) (x : Row) :
  NoDup (key <$> l) -> x ∈ l ->
  head (filter (fun r => key r = key x) l) = Some x.
Proof.
  induction l as [|y l IH]; intros Hnd Hin.
  - inversion Hin.
  - rewrite fmap_cons in Hnd. apply NoDup_cons in Hnd as [Hy Hnd].
    rewrite filter_cons. apply elem_of_cons in Hin as [->|Hin].
    + destruct (decide (key y = key y)); [reflexivity | contradiction].
    + destruct (decide (key y = key x)) as [E|E].
      * exfalso. apply Hy. rewrite E. apply list_elem_of_fmap. eauto.
      * apply IH; assumption.
Qed.

End FirstMatch.

(** ** How the chains run *)

Section Runs.

Context {NextRequest Database : Type}.
Variable VerifyJWT : string -> bool.

Abbreviation W := (@World NextRequest Database).
Abbreviation Comp := (@M NextRequest Database).

Lemma invoke_use {A} (p : Procedure) (m : Middleware) (h : Comp A) :
  invoke (use p m) h = invoke p (m A h).
Proof. unfold invoke, use. rewrite foldr_app. reflexivity. Qed.

Lemma invoke_app {A} (p rest : Procedure) (h : Comp A) :
  invoke (p ++ rest)%list h = invoke p (invoke rest h).
Proof. unfold invoke. apply foldr_app. Qed.

Lemma invoke_public {A} (h : Comp A) : invoke publicProcedure h = h.
Proof. reflexivity. Qed.

(** The run of [privateProcedure], by cases on the cookie and the
    verifier's answer. *)
Lemma privateProcedure_run {A} (h : Comp A) (w : W) :
  invoke (privateProcedure VerifyJWT) h w =
  match cookieJar w !! "Authorization" with
  | None =>
      (log (CookieGet "Authorization") w,
       inl {| code := UNAUTHORIZED; message := "Authorization missing" |})
  | Some tok =>
      if VerifyJWT tok
      then h (log (Verify tok) (log (CookieGet "Authorization") w))
      else
        (fst (cookies_delete "Authorization"
                (log (Verify tok) (log (CookieGet "Authorization") w))),
         inl {| code := UNAUTHORIZED; message := "Authorization incorrect" |})
  end.
Proof.
  unfold privateProcedure. rewrite invoke_use, invoke_public.
  unfold bind at 1. unfold cookies_get.
  destruct (cookieJar w !! "Authorization") as [tok|]; simpl; [|reflexivity].
  unfold bind at 1. unfold await_VerifyJWT.
  destruct (VerifyJWT tok); reflexivity.
Qed.

(** The run of the resolve-quiz step in front of any continuation. *)
Lemma quizStartProcedure_run {A} (h : Comp A) (w : W) :
  invoke quizStartProcedure h w =
  match cookieJar w !! "quizID" with
  | None =>
      (log (CookieGet "quizID") w,
       inl {| code := BAD_REQUEST; message := "Quiz missing" |})
  | Some v =>
      let w1 := log (Select "Quizes" v) (log (CookieGet "quizID") w) in
      match head (filter (fun r => Quiz.id r = v) (quizRows (store_of w))) with
      | Some q => h (set_quiz q w1)
      | None => (w1, inl {| code := BAD_REQUEST; message := "Quiz incorrect" |})
      end
  end.
Proof.
  unfold quizStartProcedure. rewrite invoke_use, invoke_public.
  unfold bind at 1. unfold cookies_get.
  destruct (cookieJar w !! "quizID") as [v|]; simpl; [|reflexivity].
  unfold bind, opts_ctx, select_from_where_eq_id, store_of; simpl.
  destruct (head _); reflexivity.
Qed.

(** The resolve-entry step alone, as the second middleware of
    [quizProcedure] runs it. *)
Lemma quizProcedure_run {A} (h : Comp A) (w : W) :
  invoke quizProcedure h w =
  invoke quizStartProcedure
    (fun w0 =>
       match cookieJar w0 !! "entryID" with
       | None =>
           (log (CookieGet "entryID") w0,
            inl {| code := BAD_REQUEST; message := "Entry missing" |})
       | Some v =>
           let w1 := log (Select "Entries" v) (log (CookieGet "entryID") w0) in
           match head (filter (fun r => Entry.id r = v)
                         (entryRows (store_of w0))) with
           | Some e => h (set_entry e w1)
           | None =>
               (w1, inl {| code := BAD_REQUEST; message := "Quiz incorrect" |})
           end
       end) w.
Proof.
  unfold quizProcedure. rewrite invoke_use.
  rewrite !quizStartProcedure_run.
  destruct (cookieJar w !! "quizID") as [v|]; [|reflexivity].
  cbv zeta. destruct (head _) as [q|]; [|reflexivity].
  unfold bind at 1. unfold cookies_get.
  match goal with |- context [cookieJar ?x !! "entryID"] =>
    destruct (cookieJar x !! "entryID") as [ev|] end; simpl; [|reflexivity].
  unfold bind, opts_ctx, select_from_where_eq_id, store_of; simpl.
  destruct (head _); reflexivity.
Qed.

End Runs.

(** ** The properties of the specification *)

Section Claims.

Context {NextRequest Database : Type}.
Variable db : Database.
Variable VerifyJWT : string -> bool.

Abbreviation World' := (@World NextRequest Database).
Abbreviation M' := (@M NextRequest Database).

(** Events appended to a log are the events after the old log. *)
Lemma appended_events (t evs evs' : list Event) :
  (t ++ evs)%list = (t ++ evs')%list -> evs' = evs.
Proof. intros H. symmetry. exact (app_inv_head _ _ _ H). Qed.

(** C9: for every request, [createTRPCContext] returns the context made of
    that request handle, the shared client [db], and unset [entry] and
    [quiz]; it is a total function that neither reads nor changes the
    world, so sequencing it in a computation returns that context in the
    same world without throwing. *)
Theorem createTRPCContext_fresh (req : NextRequest) :
  createTRPCContext db req = Ctx.mk req db None None
  /\ Ctx.req (createTRPCContext db req) = req
  /\ Ctx.db (createTRPCContext db req) = db
  /\ Ctx.entry (createTRPCContext db req) = None
  /\ Ctx.quiz (createTRPCContext db req) = None
  /\ forall w : World',
       ret (createTRPCContext db req) w = (w, inr (Ctx.mk req db None None)).
Proof. repeat split. Qed.

(** C5: through [privateProcedure], when the ["Authorization"] cookie is
    absent the call fails with UNAUTHORIZED "Authorization missing"; the
    only interaction is the read of that cookie, so the verifier is not
    invoked and no cookie is deleted, and cookies, store and context are
    as before. *)
Theorem privateProcedure_missing {A} (h : M' A) (w : World') :
  cookieJar w !! "Authorization" = None ->
  exists w',
    invoke (privateProcedure VerifyJWT) h w =
      (w', inl {| code := UNAUTHORIZED; message := "Authorization missing" |})
    /\ trace w' = (trace w ++ [CookieGet "Authorization"])%list
    /\ (forall evs, trace w' = (trace w ++ evs)%list ->
          (forall tok, Verify tok ∉ evs) /\ (forall n, CookieDelete n ∉ evs))
    /\ cookieJar w' = cookieJar w
    /\ dbState w' = dbState w
    /\ ctx w' = ctx w.
Proof.
  intros Hc. rewrite privateProcedure_run, Hc.
  eexists; split; [reflexivity|]. simpl. repeat split; try reflexivity.
  - intros tok Hin. apply appended_events in H. subst evs.
    apply list_elem_of_singleton in Hin. discriminate.
  - intros n Hin. apply appended_events in H. subst evs.
    apply list_elem_of_singleton in Hin. discriminate.
Qed.

(** C2: through [privateProcedure], with the ["Authorization"] cookie
    present: if the verifier rejects its value, the cookie is deleted and
    the call fails with UNAUTHORIZED "Authorization incorrect"; if the
    verifier accepts it, the rest of the chain runs with the context, the
    cookies and the store unchanged, and no cookie is deleted. *)
Theorem privateProcedure_verification {A} (h : M' A) (w : World')
    (tok : string) :
  cookieJar w !! "Authorization" = Some tok ->
  (VerifyJWT tok = false ->
   exists w',
     invoke (privateProcedure VerifyJWT) h w =
       (w', inl {| code := UNAUTHORIZED;
                   message := "Authorization incorrect" |})
     /\ cookieJar w' = delete "Authorization" (cookieJar w)
     /\ cookieJar w' !! "Authorization" = None
     /\ trace w' = (trace w ++ [CookieGet "Authorization"; Verify tok;
                                CookieDelete "Authorization"])%list
     /\ dbState w' = dbState w
     /\ ctx w' = ctx w)
  /\
  (VerifyJWT tok = true ->
   exists w',
     invoke (privateProcedure VerifyJWT) h w = h w'
     /\ ctx w' = ctx w
     /\ cookieJar w' = cookieJar w
     /\ trace w' = (trace w ++ [CookieGet "Authorization"; Verify tok])%list
     /\ (forall evs, trace w' = (trace w ++ evs)%list ->
           forall n, CookieDelete n ∉ evs)
     /\ dbState w' = dbState w).
Proof.
  intros Hc. split; intros Hv; rewrite privateProcedure_run, Hc, Hv;
    (eexists; split; [reflexivity|]); simpl.
  - repeat split; try reflexivity.
    + apply lookup_delete_eq.
    + rewrite <- !app_assoc. reflexivity.
  - repeat split; try reflexivity.
    + rewrite <- !app_assoc. reflexivity.
    + intros evs Hevs n Hin. rewrite <- !app_assoc in Hevs.
      apply appended_events in Hevs. subst evs.
      repeat (apply elem_of_cons in Hin as [Hin|Hin]; [discriminate|]).
      inversion Hin.
Qed.

(** What the run of the resolve-quiz step leaves when a row has the id. *)
Lemma first_quiz_found (w : World') (q : Quiz.t) :
  stored Quizes w q ->
  exists q',
    head (filter (fun r => Quiz.id r = Quiz.id q) (quizRows (store_of w)))
      = Some q'
    /\ stored Quizes w q' /\ Quiz.id q' = Quiz.id q
    /\ (primary_key Quizes w -> q' = q).
Proof.
  intros Hq.
  destruct (head_filter_is_Some Quiz.id (Quiz.id q) _ q Hq eq_refl) as [q' E].
  exists q'. split; [exact E|].
  destruct (head_filter_Some Quiz.id _ _ _ E) as [Hin Hid].
  repeat split; try assumption.
  intros Hpk. pose proof (head_filter_unique Quiz.id _ q Hpk Hq) as E'.
  unfold store_of in *. congruence.
Qed.

Lemma first_entry_found (w : World') (e : Entry.t) :
  stored Entries w e ->
  exists e',
    head (filter (fun r => Entry.id r = Entry.id e) (entryRows (store_of w)))
      = Some e'
    /\ stored Entries w e' /\ Entry.id e' = Entry.id e
    /\ (primary_key Entries w -> e' = e).
Proof.
  intros He.
  destruct (head_filter_is_Some Entry.id (Entry.id e) _ e He eq_refl) as [e' E].
  exists e'. split; [exact E|].
  destruct (head_filter_Some Entry.id _ _ _ E) as [Hin Hid].
  repeat split; try assumption.
  intros Hpk. pose proof (head_filter_unique Entry.id _ e Hpk He) as E'.
  unfold store_of in *. congruence.
Qed.

(** C4: through [quizStartProcedure]: with the ["quizID"] cookie absent the
    call fails with BAD_REQUEST "Quiz missing"; with the cookie present and
    no stored Quiz of that id it fails with BAD_REQUEST "Quiz incorrect";
    with a stored Quiz of that id, a stored row with that id (the row
    itself when ids are unique) is attached to the context and the rest of
    the chain runs; and in front of a resolver that cannot fail these two
    are the only failures. *)
Theorem quizStartProcedure_cases {A} (h : M' A) (a : A) (w : World') :
  (cookieJar w !! "quizID" = None ->
   exists w',
     invoke quizStartProcedure h w =
       (w', inl {| code := BAD_REQUEST; message := "Quiz missing" |})
     /\ trace w' = (trace w ++ [CookieGet "quizID"])%list
     /\ cookieJar w' = cookieJar w /\ dbState w' = dbState w
     /\ ctx w' = ctx w)
  /\
  (forall v, cookieJar w !! "quizID" = Some v ->
   no_row_with_id Quizes w v ->
   exists w',
     invoke quizStartProcedure h w =
       (w', inl {| code := BAD_REQUEST; message := "Quiz incorrect" |})
     /\ trace w' = (trace w ++ [CookieGet "quizID"; Select "Quizes" v])%list
     /\ cookieJar w' = cookieJar w /\ dbState w' = dbState w
     /\ ctx w' = ctx w)
  /\
  (forall q, cookieJar w !! "quizID" = Some (Quiz.id q) ->
   stored Quizes w q ->
   exists w' q',
     invoke quizStartProcedure h w = h w'
     /\ Ctx.quiz (ctx w') = Some q'
     /\ stored Quizes w q' /\ Quiz.id q' = Quiz.id q
     /\ (primary_key Quizes w -> q' = q)
     /\ Ctx.req (ctx w') = Ctx.req (ctx w)
     /\ Ctx.db (ctx w') = Ctx.db (ctx w)
     /\ Ctx.entry (ctx w') = Ctx.entry (ctx w)
     /\ trace w' =
          (trace w ++ [CookieGet "quizID"; Select "Quizes" (Quiz.id q)])%list
     /\ cookieJar w' = cookieJar w /\ dbState w' = dbState w)
  /\
  (forall w' err,
     invoke quizStartProcedure (ret a) w = (w', inl err) ->
     (cookieJar w !! "quizID" = None
      /\ err = {| code := BAD_REQUEST; message := "Quiz missing" |})
     \/
     (exists v, cookieJar w !! "quizID" = Some v
                /\ no_row_with_id Quizes w v
                /\ err = {| code := BAD_REQUEST;
                            message := "Quiz incorrect" |})).
Proof.
  split; [|split; [|split]].
  - intros Hc. rewrite quizStartProcedure_run, Hc.
    eexists; split; [reflexivity|]. simpl. repeat split.
  - intros v Hc Hno. rewrite quizStartProcedure_run, Hc. cbv zeta.
    rewrite (head_filter_None Quiz.id v (quizRows (store_of w)) Hno).
    eexists; split; [reflexivity|]. simpl. rewrite <- !app_assoc.
    repeat split.
  - intros q Hc Hq. rewrite quizStartProcedure_run, Hc. cbv zeta.
    destruct (first_quiz_found w q Hq) as (q' & E & Hq' & Hid & Hpk).
    rewrite E. exists (set_quiz q' (log (Select "Quizes" (Quiz.id q))
                                      (log (CookieGet "quizID") w))), q'.
    simpl. rewrite <- !app_assoc. repeat split; assumption.
  - intros w' err. rewrite quizStartProcedure_run.
    destruct (cookieJar w !! "quizID") as [v|] eqn:Hc.
    + cbv zeta.
      destruct (head (filter _ _)) as [q|] eqn:E.
      * unfold ret. discriminate.
      * intros [= <- <-]. right. exists v. repeat split.
        intros r Hr Hid.
        destruct (head_filter_is_Some Quiz.id v _ r Hr Hid) as [y Hy].
        unfold store_of in *. simpl in *. congruence.
    + intros [= <- <-]. left. split; reflexivity.
Qed.

(** C3: through [quizProcedure], with the ["quizID"] cookie naming a stored
    Quiz: if the ["entryID"] cookie is present and no stored Entry has its
    value as id, the call fails with BAD_REQUEST and the message
    "Quiz incorrect"; if the ["entryID"] cookie is absent, it fails with
    BAD_REQUEST "Entry missing". *)
Theorem quizProcedure_entry_failures {A} (h : M' A) (w : World')
    (q : Quiz.t) :
  cookieJar w !! "quizID" = Some (Quiz.id q) ->
  stored Quizes w q ->
  (forall ev, cookieJar w !! "entryID" = Some ev ->
   no_row_with_id Entries w ev ->
   exists w',
     invoke quizProcedure h w =
       (w', inl {| code := BAD_REQUEST; message := "Quiz incorrect" |})
     /\ trace w' =
          (trace w ++ [CookieGet "quizID"; Select "Quizes" (Quiz.id q);
                       CookieGet "entryID"; Select "Entries" ev])%list
     /\ cookieJar w' = cookieJar w /\ dbState w' = dbState w
     /\ Ctx.entry (ctx w') = Ctx.entry (ctx w))
  /\
  (cookieJar w !! "entryID" = None ->
   exists w',
     invoke quizProcedure h w =
       (w', inl {| code := BAD_REQUEST; message := "Entry missing" |})
     /\ trace w' =
          (trace w ++ [CookieGet "quizID"; Select "Quizes" (Quiz.id q);
                       CookieGet "entryID"])%list
     /\ cookieJar w' = cookieJar w /\ dbState w' = dbState w
     /\ Ctx.entry (ctx w') = Ctx.entry (ctx w)).
Proof.
  intros Hc Hq.
  destruct (first_quiz_found w q Hq) as (q' & E & _).
  split.
  - intros ev He Hno.
    rewrite quizProcedure_run, quizStartProcedure_run, Hc. cbv zeta.
    rewrite E. simpl. rewrite He.
    pose proof (head_filter_None Entry.id ev (entryRows (store_of w)) Hno)
      as En.
    unfold store_of in *. simpl. rewrite En.
    eexists; split; [reflexivity|]. simpl. rewrite <- !app_assoc.
    repeat split.
  - intros He.
    rewrite quizProcedure_run, quizStartProcedure_run, Hc. cbv zeta.
    rewrite E. simpl. rewrite He.
    eexists; split; [reflexivity|]. simpl. rewrite <- !app_assoc.
    repeat split.
Qed.

(** C1: through [quizProcedure], when the ["quizID"] cookie holds the id of
    a stored Quiz row and the ["entryID"] cookie the id of a stored Entry
    row, the resolver runs, and in the context it sees [quiz] and [entry]
    are stored rows with those ids: ids being the tables' unique
    identifiers, they are that Quiz row and that Entry row, every field
    included; [req] and [db] are as they were. *)
Theorem quizProcedure_resolves {A} (h : M' A) (w : World')
    (q : Quiz.t) (e : Entry.t) :
  cookieJar w !! "quizID" = Some (Quiz.id q) ->
  cookieJar w !! "entryID" = Some (Entry.id e) ->
  stored Quizes w q ->
  stored Entries w e ->
  exists w' q' e',
    invoke quizProcedure h w = h w'
    /\ Ctx.quiz (ctx w') = Some q'
    /\ Ctx.entry (ctx w') = Some e'
    /\ (primary_key Quizes w -> q' = q)
    /\ (primary_key Entries w -> e' = e)
    /\ stored Quizes w q' /\ Quiz.id q' = Quiz.id q
    /\ stored Entries w e' /\ Entry.id e' = Entry.id e
    /\ Ctx.req (ctx w') = Ctx.req (ctx w)
    /\ Ctx.db (ctx w') = Ctx.db (ctx w)
    /\ trace w' =
         (trace w ++ [CookieGet "quizID"; Select "Quizes" (Quiz.id q);
                      CookieGet "entryID"; Select "Entries" (Entry.id e)])%list
    /\ cookieJar w' = cookieJar w /\ dbState w' = dbState w.
Proof.
  intros Hcq Hce Hq He.
  destruct (first_quiz_found w q Hq) as (q' & Eq & Hsq & Hiq & Hq').
  destruct (first_entry_found w e He) as (e' & Ee & Hse & Hie & He').
  rewrite quizProcedure_run, quizStartProcedure_run, Hcq. cbv zeta.
  rewrite Eq. simpl. rewrite Hce.
  unfold store_of in Ee. unfold store_of. simpl. rewrite Ee.
  eexists _, q', e'. split; [reflexivity|]. simpl. rewrite <- !app_assoc.
  repeat split; assumption.
Qed.

(** C6: [quizProcedure] looks the Entry up by the ["entryID"] cookie alone
    and never compares its [quizID] with the resolved Quiz: there is a
    world with the context [createTRPCContext] builds and an empty log,
    whose store (ids unique) holds the quizzes "Q1" and "Q2" and an Entry
    of quiz "Q2", and whose cookies name "Q1" and that Entry, where the
    call makes exactly the two cookie reads and the two lookups by id and
    then runs the resolver on the context holding that Quiz and that
    Entry, with [entry.quizID] different from [quiz.id]. *)
Theorem quizProcedure_entry_of_other_quiz (req : NextRequest) :
  exists (w : World') (q : Quiz.t) (e : Entry.t),
    ctx w = createTRPCContext db req
    /\ trace w = []
    /\ stored Quizes w q
    /\ stored Entries w e
    /\ primary_key Quizes w
    /\ primary_key Entries w
    /\ (exists q2, stored Quizes w q2 /\ Quiz.id q2 = Entry.quizID e)
    /\ Entry.quizID e <> Quiz.id q
    /\ cookieJar w !! "quizID" = Some (Quiz.id q)
    /\ cookieJar w !! "entryID" = Some (Entry.id e)
    /\ forall A (h : M' A),
         exists w' cq ce,
           invoke quizProcedure h w = h w'
           /\ ctx w' = Ctx.mk req db (Some e) (Some q)
           /\ trace w' =
                (trace w ++
                 [CookieGet "quizID"; Select "Quizes" (Quiz.id q);
                  CookieGet "entryID"; Select "Entries" (Entry.id e)])%list
           /\ cookieJar w' = cookieJar w
           /\ dbState w' = dbState w
           /\ Ctx.quiz (ctx w') = Some cq
           /\ Ctx.entry (ctx w') = Some ce
           /\ cq = q /\ ce = e
           /\ Entry.quizID ce <> Quiz.id cq.
Proof.
  exists (stray_world db req), stray_quiz, stray_entry.
  split; [reflexivity|]. split; [reflexivity|].
  split; [left|]. split; [left|].
  split.
  { unfold primary_key. simpl. apply NoDup_cons. split.
    - intros Hin. apply list_elem_of_singleton in Hin. discriminate.
    - apply NoDup_singleton. }
  split; [unfold primary_key; simpl; apply NoDup_singleton|].
  split.
  { exists (Quiz.mk "Q2" "Geometry"). split; [right; left | reflexivity]. }
  split; [discriminate|].
  split; [reflexivity|]. split; [reflexivity|].
  intros A h. rewrite quizProcedure_run, quizStartProcedure_run.
  eexists _, stray_quiz, stray_entry. split; [reflexivity|].
  repeat split. discriminate.
Qed.

(** C7: in [quizProcedure], when the resolve-quiz step fails (the
    ["quizID"] cookie is missing, or no stored Quiz has its value as id),
    the step fails the same way whatever follows it, the call returns that
    very failure, and neither a read of the ["entryID"] cookie nor a
    lookup in Entries happens; in general a chain that fails whatever its
    continuation fails the same way when more steps are appended. *)
Theorem quizProcedure_short_circuit {A} (h : M' A) (w : World') :
  (cookieJar w !! "quizID" = None
   \/ exists v, cookieJar w !! "quizID" = Some v
                /\ no_row_with_id Quizes w v) ->
  (exists w' err,
     (forall B (k : M' B), invoke quizStartProcedure k w = (w', inl err))
     /\ invoke quizProcedure h w = (w', inl err)
     /\ (forall evs, trace w' = (trace w ++ evs)%list ->
           (CookieGet "entryID" ∉ evs)
           /\ (forall v, Select "Entries" v ∉ evs))
     /\ cookieJar w' = cookieJar w /\ dbState w' = dbState w
     /\ ctx w' = ctx w)
  /\
  (forall (p rest : Procedure) (w0 w0' : World') err0,
     (forall k : M' A, invoke p k w0 = (w0', inl err0)) ->
     invoke (p ++ rest)%list h w0 = (w0', inl err0)).
Proof.
  intros Hfail. split.
  - destruct Hfail as [Hc | (v & Hc & Hno)].
    + eexists _, _. split; [|split].
      * intros B k. rewrite quizStartProcedure_run, Hc. reflexivity.
      * rewrite quizProcedure_run, quizStartProcedure_run, Hc. reflexivity.
      * simpl. repeat split.
        -- apply appended_events in H. subst evs. intros Hin.
           apply list_elem_of_singleton in Hin. discriminate.
        -- apply appended_events in H. subst evs. intros v Hin.
           apply list_elem_of_singleton in Hin. discriminate.
    + pose proof (head_filter_None Quiz.id v (quizRows (store_of w)) Hno)
        as En.
      eexists _, _. split; [|split].
      * intros B k. rewrite quizStartProcedure_run, Hc. cbv zeta.
        rewrite En. reflexivity.
      * rewrite quizProcedure_run, quizStartProcedure_run, Hc. cbv zeta.
        rewrite En. reflexivity.
      * simpl. repeat split.
        -- rewrite <- !app_assoc in H. apply appended_events in H.
           subst evs. intros Hin.
           repeat (apply elem_of_cons in Hin as [Hin|Hin]; [discriminate|]).
           inversion Hin.
        -- rewrite <- !app_assoc in H. apply appended_events in H.
           subst evs. intros v' Hin.
           repeat (apply elem_of_cons in Hin as [Hin|Hin]; [discriminate|]).
           inversion Hin.
  - intros p rest w0 w0' err0 Hp. rewrite invoke_app. apply Hp.
Qed.

(** The resolve-quiz step hands its continuation, or leaves at a failure, a
    world with the cookies and the store it started from. *)
Lemma quizStartProcedure_reads_only {A} (h : M' A) (w : World') :
  exists w',
    (invoke quizStartProcedure h w = h w'
     \/ exists err, invoke quizStartProcedure h w = (w', inl err))
    /\ cookieJar w' = cookieJar w /\ dbState w' = dbState w
    /\ Ctx.db (ctx w') = Ctx.db (ctx w).
Proof.
  rewrite quizStartProcedure_run.
  destruct (cookieJar w !! "quizID") as [v|].
  - cbv zeta. destruct (head _) as [q|];
      (eexists; split; [first [left; reflexivity | right; eexists; reflexivity]|]);
      repeat split.
  - eexists; split; [right; eexists; reflexivity|]. repeat split.
Qed.

(** C8: the resolve-quiz and resolve-entry steps write neither to the store
    nor to the cookies: whatever [quizStartProcedure] or [quizProcedure]
    hands to the resolver, or leaves at a failure, has the cookies and the
    store of the start; and when a [quizStartProcedure] call resolved the
    quiz [q], the same call on any world with identical cookies and the
    same store, in particular on the world the first call left, resolves
    [q] again and leaves cookies and store as they were. *)
Theorem resolve_steps_read_only (w : World') :
  (forall A (h : M' A),
     exists w',
       (invoke quizStartProcedure h w = h w'
        \/ exists err, invoke quizStartProcedure h w = (w', inl err))
       /\ cookieJar w' = cookieJar w /\ dbState w' = dbState w)
  /\
  (forall A (h : M' A),
     exists w',
       (invoke quizProcedure h w = h w'
        \/ exists err, invoke quizProcedure h w = (w', inl err))
       /\ cookieJar w' = cookieJar w /\ dbState w' = dbState w)
  /\
  (forall (q : Quiz.t) (w1 : World'),
     invoke quizStartProcedure resolved_quiz w = (w1, inr (Some q)) ->
     cookieJar w1 = cookieJar w /\ dbState w1 = dbState w
     /\ (forall w2 : World',
           cookieJar w2 = cookieJar w -> store_of w2 = store_of w ->
           exists w2',
             invoke quizStartProcedure resolved_quiz w2 = (w2', inr (Some q))
             /\ cookieJar w2' = cookieJar w2 /\ dbState w2' = dbState w2)
     /\ (exists w2,
           invoke quizStartProcedure resolved_quiz w1 = (w2, inr (Some q))
           /\ cookieJar w2 = cookieJar w /\ dbState w2 = dbState w)).
Proof.
  split; [|split].
  - intros A h. destruct (quizStartProcedure_reads_only h w)
      as (w' & Hrun & Hc & Hd & _).
    exists w'. repeat split; assumption.
  - intros A h. rewrite quizProcedure_run.
    match goal with |- context [invoke quizStartProcedure ?k w] =>
      destruct (quizStartProcedure_reads_only k w)
        as (w0 & [Hrun | [err Hrun]] & Hc & Hd & Hdb) end.
    + rewrite Hrun. unfold store_of. rewrite Hc.
      destruct (cookieJar w !! "entryID") as [v|].
      * cbv zeta. destruct (head _) as [e|];
          (eexists; split;
             [first [left; reflexivity | right; eexists; reflexivity]|]);
          simpl; split; assumption.
      * eexists; split; [right; eexists; reflexivity|].
        simpl; split; assumption.
    + exists w0. split; [right; exists err; exact Hrun|]. split; assumption.
  - assert (Hres : forall (u u' : World') r,
              invoke quizStartProcedure resolved_quiz u = (u', inr r) ->
              r = head (filter (fun x => Quiz.id x = default "" (cookieJar u !! "quizID"))
                          (quizRows (store_of u)))
              /\ is_Some r /\ is_Some (cookieJar u !! "quizID")
              /\ cookieJar u' = cookieJar u /\ dbState u' = dbState u
              /\ Ctx.db (ctx u') = Ctx.db (ctx u)).
    { intros u u' r. rewrite quizStartProcedure_run.
      destruct (cookieJar u !! "quizID") as [v|]; [|discriminate].
      cbv zeta. destruct (head _) as [x|]; [|discriminate].
      unfold resolved_quiz, bind, opts_ctx, ret. simpl.
      intros [= <- <-]. simpl. repeat split; eauto. }
    assert (Hagain : forall (u : World') x,
              is_Some (cookieJar u !! "quizID") ->
              head (filter (fun r => Quiz.id r = default "" (cookieJar u !! "quizID"))
                     (quizRows (store_of u))) = Some x ->
              exists u',
                invoke quizStartProcedure resolved_quiz u = (u', inr (Some x))
                /\ cookieJar u' = cookieJar u /\ dbState u' = dbState u).
    { intros u x [v Hv] Hx. rewrite quizStartProcedure_run, Hv. cbv zeta.
      rewrite Hv in Hx. simpl in Hx. rewrite Hx.
      eexists; split; [reflexivity|]. split; reflexivity. }
    intros q w1 Hrun.
    destruct (Hres _ _ _ Hrun) as (Hq & _ & Hsome & Hc & Hd & Hdb).
    split; [exact Hc|]. split; [exact Hd|]. split.
    + intros w2 Hc2 Hs2. apply Hagain.
      * rewrite Hc2. exact Hsome.
      * rewrite Hc2, Hs2. symmetry. exact Hq.
    + destruct (Hagain w1 q) as (w2 & Hrun2 & Hc2 & Hd2).
      * rewrite Hc. exact Hsome.
      * unfold store_of. rewrite Hc, Hd, Hdb. symmetry. exact Hq.
      * exists w2. split; [exact Hrun2|]. split; congruence.
Qed.

(** C10: a cookie whose value is the empty string counts as present: in
    [quizStartProcedure], with ["quizID"] set to [""] and no stored Quiz of
    id [""], the lookup for [""] is made and the call fails with
    BAD_REQUEST "Quiz incorrect", not "Quiz missing"; likewise in the entry
    step of [quizProcedure], with ["entryID"] set to [""] and no stored
    Entry of id [""], the lookup is made and the failure is BAD_REQUEST
    "Quiz incorrect", not "Entry missing". *)
Theorem empty_cookie_is_present {A} (h : M' A) (w : World') :
  (cookieJar w !! "quizID" = Some "" ->
   no_row_with_id Quizes w "" ->
   exists w',
     invoke quizStartProcedure h w =
       (w', inl {| code := BAD_REQUEST; message := "Quiz incorrect" |})
     /\ trace w' = (trace w ++ [CookieGet "quizID"; Select "Quizes" ""])%list
     /\ forall w'',
          invoke quizStartProcedure h w <>
            (w'', inl {| code := BAD_REQUEST; message := "Quiz missing" |}))
  /\
  (forall q, cookieJar w !! "quizID" = Some (Quiz.id q) ->
   stored Quizes w q ->
   cookieJar w !! "entryID" = Some "" ->
   no_row_with_id Entries w "" ->
   exists w',
     invoke quizProcedure h w =
       (w', inl {| code := BAD_REQUEST; message := "Quiz incorrect" |})
     /\ trace w' =
          (trace w ++ [CookieGet "quizID"; Select "Quizes" (Quiz.id q);
                       CookieGet "entryID"; Select "Entries" ""])%list
     /\ forall w'',
          invoke quizProcedure h w <>
            (w'', inl {| code := BAD_REQUEST; message := "Entry missing" |})).
Proof.
  split.
  - intros Hc Hno. rewrite quizStartProcedure_run, Hc. cbv zeta.
    rewrite (head_filter_None Quiz.id "" (quizRows (store_of w)) Hno).
    eexists; split; [reflexivity|]. simpl. rewrite <- !app_assoc.
    split; [reflexivity | discriminate].
  - intros q Hc Hq He Hno.
    destruct (first_quiz_found w q Hq) as (q' & E & _).
    rewrite quizProcedure_run, quizStartProcedure_run, Hc. cbv zeta.
    rewrite E. simpl. rewrite He.
    pose proof (head_filter_None Entry.id "" (entryRows (store_of w)) Hno)
      as En.
    unfold store_of in *. simpl. rewrite En.
    eexists; split; [reflexivity|]. simpl. rewrite <- !app_assoc.
    split; [reflexivity | discriminate].
Qed.

End Claims.

(** ** The properties at the concrete deployment *)

Lemma demo_quiz_stored (jar : gmap string string) :
  stored Quizes (demo_world jar) demo_quiz.
Proof. unfold stored. simpl. left. Qed.

Lemma demo_entry_stored (jar : gmap string string) :
  stored Entries (demo_world jar) demo_entry.
Proof. unfold stored. simpl. left. Qed.

Lemma demo_primary_key_Quizes (jar : gmap string string) :
  primary_key Quizes (demo_world jar).
Proof. unfold primary_key. simpl. apply NoDup_singleton. Qed.

Lemma demo_primary_key_Entries (jar : gmap string string) :
  primary_key Entries (demo_world jar).
Proof. unfold primary_key. simpl. apply NoDup_singleton. Qed.

Lemma demo_no_quiz (jar : gmap string string) (v : string) :
  v <> "Q1" -> no_row_with_id Quizes (demo_world jar) v.
Proof.
  intros Hv r Hr. unfold stored in Hr. simpl in Hr.
  apply list_elem_of_singleton in Hr. subst r. simpl. congruence.
Qed.

Lemma demo_no_entry (jar : gmap string string) (v : string) :
  v <> "E1" -> no_row_with_id Entries (demo_world jar) v.
Proof.
  intros Hv r Hr. unfold stored in Hr. simpl in Hr.
  apply list_elem_of_singleton in Hr. subst r. simpl. congruence.
Qed.

(** Without the credential cookie the call is refused after one read. *)
Lemma privateProcedure_missing_witness :
  cookieJar (demo_world ∅) !! "Authorization" = None
  /\ exists w',
       invoke (privateProcedure demo_verifier) (ret tt) (demo_world ∅) =
         (w', inl {| code := UNAUTHORIZED;
                     message := "Authorization missing" |})
       /\ trace w' = [CookieGet "Authorization"].
Proof.
  assert (Hc : cookieJar (demo_world ∅) !! "Authorization" = None)
    by reflexivity.
  split; [exact Hc|].
  destruct (privateProcedure_missing demo_verifier (ret tt) (demo_world ∅) Hc)
    as (w' & Hrun & Ht & _).
  exists w'. split; [exact Hrun | exact Ht].
Defined.

(** The token ["tok123"] is rejected and its cookie deleted; the token
    ["good"] passes and the resolver runs on an unchanged context. *)
Lemma privateProcedure_verification_witness :
  (demo_verifier "tok123" = false
   /\ exists w',
        invoke (privateProcedure demo_verifier) (ret tt)
          (demo_world {[ "Authorization" := "tok123" ]}) =
          (w', inl {| code := UNAUTHORIZED;
                      message := "Authorization incorrect" |})
        /\ cookieJar w' !! "Authorization" = None)
  /\
  (demo_verifier "good" = true
   /\ exists w',
        invoke (privateProcedure demo_verifier) (ret tt)
          (demo_world {[ "Authorization" := "good" ]}) = (w', inr tt)
        /\ ctx w' = createTRPCContext tt "POST /api/trpc"
        /\ cookieJar w' = {[ "Authorization" := "good" ]}).
Proof.
  split.
  - assert (Hv : demo_verifier "tok123" = false) by reflexivity.
    split; [exact Hv|].
    assert (Hc : cookieJar (demo_world {[ "Authorization" := "tok123" ]})
                   !! "Authorization" = Some "tok123") by reflexivity.
    destruct (privateProcedure_verification demo_verifier (ret tt)
                (demo_world {[ "Authorization" := "tok123" ]}) "tok123"
                Hc) as [Hbad _].
    destruct (Hbad Hv) as (w' & Hrun & _ & Hgone & _).
    exists w'. split; [exact Hrun | exact Hgone].
  - assert (Hv : demo_verifier "good" = true) by reflexivity.
    split; [exact Hv|].
    assert (Hc : cookieJar (demo_world {[ "Authorization" := "good" ]})
                   !! "Authorization" = Some "good") by reflexivity.
    destruct (privateProcedure_verification demo_verifier (ret tt)
                (demo_world {[ "Authorization" := "good" ]}) "good"
                Hc) as [_ Hgood].
    destruct (Hgood Hv) as (w' & Hrun & Hctx & Hjar & _).
    exists w'. split; [exact Hrun|]. split; [exact Hctx | exact Hjar].
Defined.

(** The three outcomes of [quizStartProcedure]: no cookie, the unknown id
    ["Q9"], and the stored quiz ["Q1"]. *)
Lemma quizStartProcedure_cases_witness :
  (exists w',
     invoke quizStartProcedure (ret tt) (demo_world ∅) =
       (w', inl {| code := BAD_REQUEST; message := "Quiz missing" |}))
  /\
  (exists w',
     invoke quizStartProcedure (ret tt) (demo_world {[ "quizID" := "Q9" ]}) =
       (w', inl {| code := BAD_REQUEST; message := "Quiz incorrect" |}))
  /\
  (exists w',
     invoke quizStartProcedure (ret tt) (demo_world {[ "quizID" := "Q1" ]}) =
       (w', inr tt)
     /\ Ctx.quiz (ctx w') = Some {| Quiz.id := "Q1"; Quiz.name := "Algebra" |})
  /\
  (cookieJar (demo_world ∅) !! "quizID" = None
   \/ exists v, cookieJar (demo_world ∅) !! "quizID" = Some v).
Proof.
  assert (H0 : cookieJar (demo_world ∅) !! "quizID" = None) by reflexivity.
  assert (H9 : cookieJar (demo_world {[ "quizID" := "Q9" ]}) !! "quizID"
               = Some "Q9") by reflexivity.
  assert (H1 : cookieJar (demo_world {[ "quizID" := "Q1" ]}) !! "quizID"
               = Some (Quiz.id demo_quiz)) by reflexivity.
  assert (N9 : "Q9" <> "Q1") by discriminate.
  split; [|split; [|split]].
  - destruct (quizStartProcedure_cases (ret tt) tt (demo_world ∅))
      as (Hmiss & _).
    destruct (Hmiss H0) as (w' & Hrun & _). exists w'. exact Hrun.
  - destruct (quizStartProcedure_cases (ret tt) tt
                (demo_world {[ "quizID" := "Q9" ]})) as (_ & Hbad & _).
    destruct (Hbad "Q9" H9 (demo_no_quiz _ "Q9" N9)) as (w' & Hrun & _).
    exists w'. exact Hrun.
  - destruct (quizStartProcedure_cases (ret tt) tt
                (demo_world {[ "quizID" := "Q1" ]})) as (_ & _ & Hok & _).
    destruct (Hok demo_quiz H1 (demo_quiz_stored _))
      as (w' & q' & Hrun & Hquiz & _ & _ & Hpk & _).
    exists w'. split; [exact Hrun|].
    rewrite Hquiz, (Hpk (demo_primary_key_Quizes _)). reflexivity.
  - destruct (quizStartProcedure_cases (ret tt) tt (demo_world ∅))
      as (Hmiss & _ & _ & Honly).
    destruct (Hmiss H0) as (w' & Hrun & _).
    destruct (Honly w' _ Hrun) as [[Hc _] | (v & Hc & _)].
    + left. exact Hc.
    + right. exists v. exact Hc.
Defined.

(** With the quiz ["Q1"] resolved: the unknown entry id ["E9"], and no
    entry cookie at all. *)
Lemma quizProcedure_entry_failures_witness :
  (exists w',
     invoke quizProcedure (ret tt)
       (demo_world {[ "quizID" := "Q1"; "entryID" := "E9" ]}) =
       (w', inl {| code := BAD_REQUEST; message := "Quiz incorrect" |}))
  /\
  (exists w',
     invoke quizProcedure (ret tt) (demo_world {[ "quizID" := "Q1" ]}) =
       (w', inl {| code := BAD_REQUEST; message := "Entry missing" |})).
Proof.
  assert (N9 : "E9" <> "E1") by discriminate.
  split.
  - assert (Hq : cookieJar (demo_world {[ "quizID" := "Q1"; "entryID" := "E9" ]})
                   !! "quizID" = Some (Quiz.id demo_quiz)) by reflexivity.
    assert (He : cookieJar (demo_world {[ "quizID" := "Q1"; "entryID" := "E9" ]})
                   !! "entryID" = Some "E9") by reflexivity.
    destruct (quizProcedure_entry_failures (ret tt) _ demo_quiz Hq
                (demo_quiz_stored _)) as [Hbad _].
    destruct (Hbad "E9" He (demo_no_entry _ "E9" N9)) as (w' & Hrun & _).
    exists w'. exact Hrun.
  - assert (Hq : cookieJar (demo_world {[ "quizID" := "Q1" ]})
                   !! "quizID" = Some (Quiz.id demo_quiz)) by reflexivity.
    assert (He : cookieJar (demo_world {[ "quizID" := "Q1" ]})
                   !! "entryID" = None) by reflexivity.
    destruct (quizProcedure_entry_failures (ret tt) _ demo_quiz Hq
                (demo_quiz_stored _)) as [_ Hmiss].
    destruct (Hmiss He) as (w' & Hrun & _).
    exists w'. exact Hrun.
Defined.

(** Quiz cookie ["Q1"], entry cookie ["E1"], both rows stored: the resolver
    sees the two rows. *)
Lemma quizProcedure_resolves_witness :
  exists w',
    invoke quizProcedure (ret tt)
      (demo_world {[ "quizID" := "Q1"; "entryID" := "E1" ]}) = (w', inr tt)
    /\ Ctx.quiz (ctx w') = Some {| Quiz.id := "Q1"; Quiz.name := "Algebra" |}
    /\ Ctx.entry (ctx w') = Some demo_entry.
Proof.
  assert (Hq : cookieJar (demo_world {[ "quizID" := "Q1"; "entryID" := "E1" ]})
                 !! "quizID" = Some (Quiz.id demo_quiz)) by reflexivity.
  assert (He : cookieJar (demo_world {[ "quizID" := "Q1"; "entryID" := "E1" ]})
                 !! "entryID" = Some (Entry.id demo_entry)) by reflexivity.
  destruct (quizProcedure_resolves (ret tt) _ demo_quiz demo_entry Hq He
              (demo_quiz_stored _) (demo_entry_stored _))
    as (w' & q' & e' & Hrun & Hquiz & Hentry & Hpq & Hpe & _).
  exists w'. split; [exact Hrun|].
  rewrite Hquiz, Hentry, (Hpq (demo_primary_key_Quizes _)),
    (Hpe (demo_primary_key_Entries _)).
  split; reflexivity.
Defined.

(** With no quiz cookie, and with the unknown quiz id ["Q9"], the entry
    step of [quizProcedure] does not run, even when an entry cookie is
    there; appending [privateProcedure] to the failing chain changes
    nothing either. *)
Lemma quizProcedure_short_circuit_witness :
  (exists w' err,
     invoke quizProcedure (ret tt) (demo_world {[ "entryID" := "E1" ]}) =
       (w', inl err)
     /\ invoke quizStartProcedure (ret tt)
          (demo_world {[ "entryID" := "E1" ]}) = (w', inl err)
     /\ cookieJar w' = {[ "entryID" := "E1" ]})
  /\
  (exists w' err,
     invoke quizProcedure (ret tt)
       (demo_world {[ "quizID" := "Q9"; "entryID" := "E1" ]}) =
       (w', inl err)
     /\ invoke quizStartProcedure (ret tt)
          (demo_world {[ "quizID" := "Q9"; "entryID" := "E1" ]}) =
          (w', inl err)
     /\ cookieJar w' = {[ "quizID" := "Q9"; "entryID" := "E1" ]})
  /\
  (exists w' err,
     invoke (quizStartProcedure ++ privateProcedure demo_verifier)%list
       (ret tt) (demo_world {[ "entryID" := "E1" ]}) = (w', inl err)).
Proof.
  assert (H0 : cookieJar (demo_world {[ "entryID" := "E1" ]}) !! "quizID"
               = None) by reflexivity.
  assert (H9 : cookieJar (demo_world {[ "quizID" := "Q9"; "entryID" := "E1" ]})
                 !! "quizID" = Some "Q9") by reflexivity.
  assert (N9 : "Q9" <> "Q1") by discriminate.
  split; [|split].
  - destruct (quizProcedure_short_circuit (ret tt)
                (demo_world {[ "entryID" := "E1" ]}) (or_introl H0))
      as [(w' & err & Hany & Hrun & _ & Hjar & _) _].
    exists w', err. split; [exact Hrun|].
    split; [exact (Hany unit (ret tt)) | exact Hjar].
  - destruct (quizProcedure_short_circuit (ret tt)
                (demo_world {[ "quizID" := "Q9"; "entryID" := "E1" ]})
                (or_intror (ex_intro _ "Q9"
                              (conj H9 (demo_no_quiz _ "Q9" N9)))))
      as [(w' & err & Hany & Hrun & _ & Hjar & _) _].
    exists w', err. split; [exact Hrun|].
    split; [exact (Hany unit (ret tt)) | exact Hjar].
  - destruct (quizProcedure_short_circuit (ret tt)
                (demo_world {[ "entryID" := "E1" ]}) (or_introl H0))
      as [(w' & err & Hany & _) Hchain].
    exists w', err.
    apply (Hchain quizStartProcedure (privateProcedure demo_verifier)).
    intros k. apply Hany.
Defined.

(** Resolving the quiz ["Q1"], then calling again on the world the first
    call left, with a new context for the second request, resolves the
    same row. *)
Lemma resolve_steps_read_only_witness :
  exists w1 w2,
    invoke quizStartProcedure resolved_quiz
      (demo_world {[ "quizID" := "Q1" ]}) = (w1, inr (Some demo_quiz))
    /\ invoke quizStartProcedure resolved_quiz
         {| cookieJar := cookieJar w1; dbState := dbState w1;
            ctx := createTRPCContext tt "POST /api/trpc (again)";
            trace := trace w1 |} = (w2, inr (Some demo_quiz))
    /\ dbState w2 = (fun _ => demo_store)
    /\ cookieJar w2 = {[ "quizID" := "Q1" ]}.
Proof.
  destruct (resolve_steps_read_only (demo_world {[ "quizID" := "Q1" ]}))
    as (_ & _ & Htwice).
  eexists.
  assert (Hrun : invoke quizStartProcedure resolved_quiz
            (demo_world {[ "quizID" := "Q1" ]}) = (_, inr (Some demo_quiz)))
    by reflexivity.
  destruct (Htwice _ _ Hrun) as (Hc & Hd & Hsame & _).
  match goal with |- exists w2, _ /\ invoke _ _ ?u = _ /\ _ =>
    destruct (Hsame u) as (w2 & Hrun2 & Hc2 & Hd2) end.
  - exact Hc.
  - unfold store_of. simpl. reflexivity.
  - exists w2. split; [exact Hrun|]. split; [exact Hrun2|].
    split; [rewrite Hd2; reflexivity | rewrite Hc2; reflexivity].
Defined.

(** An empty ["quizID"] cookie, and an empty ["entryID"] cookie behind a
    resolved quiz, are looked up and not found. *)
Lemma empty_cookie_is_present_witness :
  (exists w',
     invoke quizStartProcedure (ret tt) (demo_world {[ "quizID" := "" ]}) =
       (w', inl {| code := BAD_REQUEST; message := "Quiz incorrect" |})
     /\ trace w' = [CookieGet "quizID"; Select "Quizes" ""])
  /\
  (exists w',
     invoke quizProcedure (ret tt)
       (demo_world {[ "quizID" := "Q1"; "entryID" := "" ]}) =
       (w', inl {| code := BAD_REQUEST; message := "Quiz incorrect" |})
     /\ trace w' = [CookieGet "quizID"; Select "Quizes" "Q1";
                    CookieGet "entryID"; Select "Entries" ""]).
Proof.
  assert (NQ : "" <> "Q1") by discriminate.
  assert (NE : "" <> "E1") by discriminate.
  split.
  - assert (Hc : cookieJar (demo_world {[ "quizID" := "" ]}) !! "quizID"
                 = Some "") by reflexivity.
    destruct (empty_cookie_is_present (ret tt)
                (demo_world {[ "quizID" := "" ]})) as [Hq _].
    destruct (Hq Hc (demo_no_quiz _ "" NQ)) as (w' & Hrun & Ht & _).
    exists w'. split; [exact Hrun | exact Ht].
  - assert (Hc : cookieJar (demo_world {[ "quizID" := "Q1"; "entryID" := "" ]})
                   !! "quizID" = Some (Quiz.id demo_quiz)) by reflexivity.
    assert (He : cookieJar (demo_world {[ "quizID" := "Q1"; "entryID" := "" ]})
                   !! "entryID" = Some "") by reflexivity.
    destruct (empty_cookie_is_present (ret tt)
                (demo_world {[ "quizID" := "Q1"; "entryID" := "" ]}))
      as [_ Hentry].
    destruct (Hentry demo_quiz Hc (demo_quiz_stored _) He
                (demo_no_entry _ "" NE)) as (w' & Hrun & Ht & _).
    exists w'. split; [exact Hrun | exact Ht].
Defined.

(** ** Further properties of the procedures *)

Section More.

Context {NextRequest Database : Type}.
Variable db : Database.
Variable VerifyJWT : string -> bool.

Abbreviation Wd := (@World NextRequest Database).
Abbreviation Cm := (@M NextRequest Database).

(** X1: in front of a resolver that cannot fail, a [privateProcedure] call
    succeeds exactly when the ["Authorization"] cookie is present and the
    verifier accepts its value; every failure has the code UNAUTHORIZED. *)
Theorem privateProcedure_gate {A} (a : A) (w : Wd) :
  ((exists w', invoke (privateProcedure VerifyJWT) (ret a) w = (w', inr a))
   <-> (exists tok, cookieJar w !! "Authorization" = Some tok
                    /\ VerifyJWT tok = true))
  /\ (forall w' err,
        invoke (privateProcedure VerifyJWT) (ret a) w = (w', inl err) ->
        code err = UNAUTHORIZED).
Proof.
  rewrite privateProcedure_run.
  destruct (cookieJar w !! "Authorization") as [tok|].
  - destruct (VerifyJWT tok) eqn:Hv.
    + split.
      * split; [intros _; exists tok; split; [reflexivity | exact Hv]|].
        intros _. eexists. reflexivity.
      * intros w' err. unfold ret. discriminate.
    + split.
      * split; [intros [w' Hrun]; discriminate|].
        intros (tok' & [= <-] & Hv'). congruence.
      * intros w' err [= _ <-]. reflexivity.
  - split.
    + split; [intros [w' Hrun]; discriminate|].
      intros (tok & Hc & _). discriminate.
    + intros w' err [= _ <-]. reflexivity.
Qed.

(** X2: whatever its outcome, a [privateProcedure] call keeps every cookie
    other than ["Authorization"], and keeps the store and the context. *)
Theorem privateProcedure_keeps_other_cookies {A} (h : Cm A) (w : Wd) :
  exists w',
    (invoke (privateProcedure VerifyJWT) h w = h w'
     \/ exists err, invoke (privateProcedure VerifyJWT) h w = (w', inl err))
    /\ (forall n, n <> "Authorization" ->
          cookieJar w' !! n = cookieJar w !! n)
    /\ dbState w' = dbState w
    /\ ctx w' = ctx w.
Proof.
  rewrite privateProcedure_run.
  destruct (cookieJar w !! "Authorization") as [tok|].
  - destruct (VerifyJWT tok).
    + eexists. split; [left; reflexivity|]. simpl. repeat split.
    + eexists. split; [right; eexists; reflexivity|]. simpl.
      repeat split. intros n Hn. apply lookup_delete_ne. congruence.
  - eexists. split; [right; eexists; reflexivity|]. simpl. repeat split.
Qed.

(** [rows[0]] of the matching rows is the first row of the table that
    matches. *)
Lemma head_filter_first {Row} (key : Row -> string) (l1 l2 : list Row)
    (x : Row) :
  (forall r, r ∈ l1 -> key r <> key x) ->
  head (filter (fun r => key r = key x) (l1 ++ x :: l2)%list) = Some x.
Proof.
  induction l1 as [|y l1 IH]; intros Hno; simpl.
  - rewrite filter_cons. destruct (decide (key x = key x)); [reflexivity | contradiction].
  - rewrite filter_cons. destruct (decide (key y = key x)) as [E|E].
    + exfalso. apply (Hno y); [left | exact E].
    + apply IH. intros r Hr. apply Hno. right. exact Hr.
Qed.

Ltac not_logged :=
  let Hin := fresh "Hin" in
  intros Hin;
  repeat (apply elem_of_cons in Hin as [Hin|Hin]; [discriminate|]);
  inversion Hin.

(** X4: the quiz chain does not authenticate: whatever its outcome, a
    [quizProcedure] call never reads the ["Authorization"] cookie, never
    asks the verifier and never deletes a cookie, and every failure it
    raises has the code BAD_REQUEST. *)
Theorem quizProcedure_never_authenticates {A} (h : Cm A) (w : Wd) :
  exists w' evs,
    (invoke quizProcedure h w = h w'
     \/ exists err, invoke quizProcedure h w = (w', inl err)
                    /\ code err = BAD_REQUEST)
    /\ trace w' = (trace w ++ evs)%list
    /\ (CookieGet "Authorization" ∉ evs)
    /\ (forall tok, Verify tok ∉ evs)
    /\ (forall n, CookieDelete n ∉ evs).
Proof.
  rewrite quizProcedure_run, quizStartProcedure_run.
  destruct (cookieJar w !! "quizID") as [vq|].
  - cbv zeta. destruct (head _) as [q|].
    + simpl. destruct (cookieJar w !! "entryID") as [ve|].
      * destruct (head _) as [e|].
        -- eexists _, [_; _; _; _]. split; [left; reflexivity|]. simpl.
           rewrite <- !app_assoc. split; [reflexivity|].
           split; [|split]; intros; not_logged.
        -- eexists _, [_; _; _; _].
           split; [right; eexists; split; reflexivity|]. simpl.
           rewrite <- !app_assoc. split; [reflexivity|].
           split; [|split]; intros; not_logged.
      * eexists _, [_; _; _].
        split; [right; eexists; split; reflexivity|]. simpl.
        rewrite <- !app_assoc. split; [reflexivity|].
        split; [|split]; intros; not_logged.
    + eexists _, [_; _].
      split; [right; eexists; split; reflexivity|]. simpl.
      rewrite <- !app_assoc. split; [reflexivity|].
      split; [|split]; intros; not_logged.
  - eexists _, [_].
    split; [right; eexists; split; reflexivity|]. simpl.
    split; [reflexivity|].
    split; [|split]; intros; not_logged.
Qed.

(** X5: in front of a resolver that cannot fail, a [quizProcedure] call
    succeeds exactly when the ["quizID"] cookie holds the id of a stored
    Quiz and the ["entryID"] cookie holds the id of a stored Entry. *)
Theorem quizProcedure_succeeds_iff {A} (a : A) (w : Wd) :
  (exists w', invoke quizProcedure (ret a) w = (w', inr a))
  <-> (exists q e,
         cookieJar w !! "quizID" = Some (Quiz.id q)
         /\ stored Quizes w q
         /\ cookieJar w !! "entryID" = Some (Entry.id e)
         /\ stored Entries w e).
Proof.
  rewrite quizProcedure_run, quizStartProcedure_run. split.
  - intros [w' Hrun]. revert Hrun.
    destruct (cookieJar w !! "quizID") as [vq|]; [|discriminate].
    cbv zeta.
    destruct (head (filter _ (quizRows _))) as [q|] eqn:Eq; [|discriminate].
    simpl. destruct (cookieJar w !! "entryID") as [ve|]; [|discriminate].
    destruct (head (filter _ (entryRows _))) as [e|] eqn:Ee; [|discriminate].
    intros _.
    destruct (head_filter_Some Quiz.id _ _ _ Eq) as [Hq <-].
    destruct (head_filter_Some Entry.id _ _ _ Ee) as [He <-].
    exists q, e. repeat split; assumption.
  - intros (q & e & Hcq & Hq & Hce & He).
    destruct (first_quiz_found w q Hq) as (q' & Eq & _).
    destruct (first_entry_found w e He) as (e' & Ee & _).
    rewrite Hcq. cbv zeta. rewrite Eq. simpl. rewrite Hce.
    unfold store_of in Ee. unfold store_of. simpl. rewrite Ee.
    eexists. reflexivity.
Qed.

(** X6: when several rows carry the id of the cookie, the first one in the
    table's order is the one attached: for the Quiz and for the Entry
    alike, the rows before it having other ids. *)
Theorem quizProcedure_first_row_wins {A} (h : Cm A) (w : Wd)
    (lq lq' : list Quiz.t) (q : Quiz.t)
    (le le' : list Entry.t) (e : Entry.t) :
  quizRows (store_of w) = (lq ++ q :: lq')%list ->
  (forall r, r ∈ lq -> Quiz.id r <> Quiz.id q) ->
  entryRows (store_of w) = (le ++ e :: le')%list ->
  (forall r, r ∈ le -> Entry.id r <> Entry.id e) ->
  cookieJar w !! "quizID" = Some (Quiz.id q) ->
  cookieJar w !! "entryID" = Some (Entry.id e) ->
  exists w',
    invoke quizProcedure h w = h w'
    /\ Ctx.quiz (ctx w') = Some q
    /\ Ctx.entry (ctx w') = Some e.
Proof.
  intros Hlq Hq Hle He Hcq Hce.
  rewrite quizProcedure_run, quizStartProcedure_run, Hcq. cbv zeta.
  rewrite Hlq, (head_filter_first Quiz.id lq lq' q Hq). simpl. rewrite Hce.
  unfold store_of in Hle. unfold store_of. simpl.
  rewrite Hle, (head_filter_first Entry.id le le' e He).
  eexists. split; [reflexivity|]. simpl. split; reflexivity.
Qed.

(** X7: a [quizProcedure] call that resolves the quiz and then fails in the
    entry step (no ["entryID"] cookie, or no Entry of that id) leaves the
    resolved Quiz assigned on the context object: the assignment is not
    undone by the failure. *)
Theorem quizProcedure_failure_keeps_quiz {A} (h : Cm A) (w : Wd)
    (q : Quiz.t) :
  cookieJar w !! "quizID" = Some (Quiz.id q) ->
  stored Quizes w q ->
  (cookieJar w !! "entryID" = None
   \/ exists ve, cookieJar w !! "entryID" = Some ve
                 /\ no_row_with_id Entries w ve) ->
  exists w' err q',
    invoke quizProcedure h w = (w', inl err)
    /\ Ctx.quiz (ctx w') = Some q'
    /\ stored Quizes w q' /\ Quiz.id q' = Quiz.id q
    /\ (primary_key Quizes w -> q' = q)
    /\ Ctx.entry (ctx w') = Ctx.entry (ctx w).
Proof.
  intros Hcq Hq Hfail.
  destruct (first_quiz_found w q Hq) as (q' & Eq & Hsq & Hiq & Hpk).
  rewrite quizProcedure_run, quizStartProcedure_run, Hcq. cbv zeta.
  rewrite Eq. simpl.
  destruct Hfail as [Hce | (ve & Hce & Hno)]; rewrite Hce.
  - eexists _, _, q'. split; [reflexivity|]. simpl. repeat split; assumption.
  - pose proof (head_filter_None Entry.id ve (entryRows (store_of w)) Hno)
      as En.
    unfold store_of in En. unfold store_of. simpl. rewrite En.
    eexists _, _, q'. split; [reflexivity|]. simpl. repeat split; assumption.
Qed.

(** X8: [quizProcedure] is stricter than [quizStartProcedure]: whenever a
    [quizProcedure] call succeeds, the [quizStartProcedure] call on the
    same world succeeds too and attaches the same Quiz. *)
Theorem quizProcedure_implies_quizStart {A} (a : A) (w w' : Wd) :
  invoke quizProcedure (ret a) w = (w', inr a) ->
  exists w'',
    invoke quizStartProcedure (ret a) w = (w'', inr a)
    /\ Ctx.quiz (ctx w'') = Ctx.quiz (ctx w')
    /\ is_Some (Ctx.quiz (ctx w'))
    /\ is_Some (Ctx.entry (ctx w')).
Proof.
  rewrite quizProcedure_run, !quizStartProcedure_run.
  destruct (cookieJar w !! "quizID") as [vq|]; [|discriminate].
  cbv zeta. destruct (head _) as [q|]; [|discriminate].
  simpl. destruct (cookieJar w !! "entryID") as [ve|]; [|discriminate].
  destruct (head _) as [e|]; [|discriminate].
  unfold ret. intros [= <-]. eexists. split; [reflexivity|].
  simpl. repeat split; eauto.
Qed.

(** X9: on a context built by [createInnerTRPCContext], whatever [entry]
    and [quiz] the options carried, the rows are looked up behind the
    module-level client [db], and a successful [quizProcedure] call hands
    the resolver the context made of the request, [db] and the rows found
    for the cookies (ids being unique). *)
Theorem quizProcedure_on_built_context {A} (h : Cm A) (w : Wd)
    (opts : CreateContextOptions) (q : Quiz.t) (e : Entry.t) :
  ctx w = createInnerTRPCContext db opts ->
  cookieJar w !! "quizID" = Some (Quiz.id q) ->
  cookieJar w !! "entryID" = Some (Entry.id e) ->
  q ∈ quizRows (dbState w db) ->
  e ∈ entryRows (dbState w db) ->
  NoDup (Quiz.id <$> quizRows (dbState w db)) ->
  NoDup (Entry.id <$> entryRows (dbState w db)) ->
  exists w',
    invoke quizProcedure h w = h w'
    /\ ctx w' = Ctx.mk (opts_req opts) db (Some e) (Some q).
Proof.
  intros Hctx Hcq Hce Hq He Hpq Hpe.
  assert (Hs : store_of w = dbState w db)
    by (unfold store_of; rewrite Hctx; reflexivity).
  rewrite quizProcedure_run, quizStartProcedure_run, Hcq. cbv zeta.
  rewrite Hs, (head_filter_unique Quiz.id _ q Hpq Hq). simpl. rewrite Hce.
  unfold store_of. simpl. rewrite Hctx. simpl.
  rewrite (head_filter_unique Entry.id _ e Hpe He).
  eexists. split; [reflexivity|]. simpl. rewrite Hctx. reflexivity.
Qed.

End More.

(** ** Properties of the error formatter *)

Section FormatterFacts.

Context {ZodError Flattened Json : Type}.
Variable flatten : ZodError -> Flattened.

Abbreviation Opts := (@FormatterOpts ZodError Flattened Json).

(** X10: the formatter keeps the message, the code and every key of
    [shape.data] other than ["zodError"]; the result always has the key
    ["zodError"], whose value is [null] exactly when the cause is not a
    ZodError and the flattened cause otherwise, whatever [shape.data] held
    under that key. *)
Theorem errorFormatter_data (opts : Opts) :
  Shape.message (errorFormatter flatten opts) = Shape.message (shape opts)
  /\ Shape.code (errorFormatter flatten opts) = Shape.code (shape opts)
  /\ (forall k, k <> "zodError" ->
        Shape.data (errorFormatter flatten opts) !! k
        = Shape.data (shape opts) !! k)
  /\ dom (Shape.data (errorFormatter flatten opts))
     = {[ "zodError" ]} ∪ dom (Shape.data (shape opts))
  /\ (Shape.data (errorFormatter flatten opts) !! "zodError" = Some JsNull
      <-> error_cause opts = CauseOther)
  /\ (forall z, error_cause opts = CauseZodError z ->
        Shape.data (errorFormatter flatten opts) !! "zodError"
        = Some (JsFlattened (flatten z))).
Proof.
  unfold errorFormatter. simpl.
  split; [reflexivity|]. split; [reflexivity|]. split; [|split; [|split]].
  - intros k Hk. apply lookup_insert_ne. congruence.
  - apply dom_insert_L.
  - rewrite lookup_insert_eq.
    destruct (error_cause opts) as [z|]; split; try discriminate; reflexivity.
  - intros z Hz. rewrite lookup_insert_eq, Hz. reflexivity.
Qed.

(** X11: formatting an already formatted shape again gives what formatting
    the original shape with the later cause gives: the later [zodError]
    replaces the earlier one and nothing else changes; in particular the
    formatter is idempotent for one cause. *)
Theorem errorFormatter_again (opts : Opts) (c : ErrorCause ZodError) :
  errorFormatter flatten
    {| shape := errorFormatter flatten opts; error_cause := c |}
  = errorFormatter flatten {| shape := shape opts; error_cause := c |}
  /\ errorFormatter flatten
       {| shape := errorFormatter flatten opts;
          error_cause := error_cause opts |}
     = errorFormatter flatten opts.
Proof.
  unfold errorFormatter. simpl. rewrite !insert_insert_eq.
  split; reflexivity.
Qed.

End FormatterFacts.

(** ** Properties of the logger link *)

(** X12: the logger link is enabled for an operation exactly when the
    environment is ["development"] or the operation is a result coming
    down that is an error: with any other or no [NODE_ENV], requests going
    up and successful results are not logged. *)
Theorem loggerLink_enabled_iff (NODE_ENV : option string) (op : LoggerOp) :
  loggerLink_enabled NODE_ENV op = true
  <-> (NODE_ENV = Some "development" \/ op = OpDown ResultError).
Proof.
  unfold loggerLink_enabled. rewrite orb_true_iff, bool_decide_eq_true.
  split; (intros [H|H]; [left; exact H | right]).
  - destruct op as [|[|]]; simpl in H; try discriminate. reflexivity.
  - rewrite H. reflexivity.
Qed.

(** ** The further properties at the concrete deployments *)

(** The token ["good"] opens the gate; the token ["tok123"] is refused with
    UNAUTHORIZED. *)
Lemma privateProcedure_gate_witness :
  (exists w',
     invoke (privateProcedure demo_verifier) (ret tt)
       (demo_world {[ "Authorization" := "good" ]}) = (w', inr tt))
  /\ (exists tok,
        cookieJar (demo_world {[ "Authorization" := "good" ]})
          !! "Authorization" = Some tok
        /\ demo_verifier tok = true)
  /\ (exists w' err,
        invoke (privateProcedure demo_verifier) (ret tt)
          (demo_world {[ "Authorization" := "tok123" ]}) = (w', inl err)
        /\ code err = UNAUTHORIZED).
Proof.
  assert (Hok : exists tok,
             cookieJar (demo_world {[ "Authorization" := "good" ]})
               !! "Authorization" = Some tok
             /\ demo_verifier tok = true)
    by (exists "good"; split; reflexivity).
  split; [|split].
  - destruct (privateProcedure_gate demo_verifier tt
                (demo_world {[ "Authorization" := "good" ]})) as [[_ Hback] _].
    exact (Hback Hok).
  - exact Hok.
  - assert (Hrun : invoke (privateProcedure demo_verifier) (ret tt)
                     (demo_world {[ "Authorization" := "tok123" ]})
                   = (_, inl {| code := UNAUTHORIZED;
                                message := "Authorization incorrect" |}))
      by reflexivity.
    destruct (privateProcedure_gate demo_verifier tt
                (demo_world {[ "Authorization" := "tok123" ]})) as [_ Hcode].
    eexists _, _. split; [exact Hrun | exact (Hcode _ _ Hrun)].
Defined.

(** A refused token costs the ["Authorization"] cookie only: the quiz
    cookie is still there. *)
Lemma privateProcedure_keeps_other_cookies_witness :
  exists w',
    (invoke (privateProcedure demo_verifier) (ret tt)
       (demo_world {[ "Authorization" := "tok123"; "quizID" := "Q1" ]})
     = ret tt w'
     \/ exists err,
          invoke (privateProcedure demo_verifier) (ret tt)
            (demo_world {[ "Authorization" := "tok123"; "quizID" := "Q1" ]})
          = (w', inl err))
    /\ cookieJar w' !! "quizID" = Some "Q1".
Proof.
  assert (Hn : "quizID" <> "Authorization") by discriminate.
  destruct (privateProcedure_keeps_other_cookies demo_verifier (ret tt)
              (demo_world {[ "Authorization" := "tok123"; "quizID" := "Q1" ]}))
    as (w' & Hrun & Hjar & _).
  exists w'. split; [exact Hrun|]. rewrite (Hjar "quizID" Hn). reflexivity.
Defined.

(** Both cookies naming stored rows: the call succeeds; and from the
    success the rows are recovered. *)
Lemma quizProcedure_succeeds_iff_witness :
  (exists w',
     invoke quizProcedure (ret tt)
       (demo_world {[ "quizID" := "Q1"; "entryID" := "E1" ]}) = (w', inr tt))
  /\ (exists q e,
        cookieJar (demo_world {[ "quizID" := "Q1"; "entryID" := "E1" ]})
          !! "quizID" = Some (Quiz.id q)
        /\ stored Quizes
             (demo_world {[ "quizID" := "Q1"; "entryID" := "E1" ]}) q
        /\ cookieJar (demo_world {[ "quizID" := "Q1"; "entryID" := "E1" ]})
             !! "entryID" = Some (Entry.id e)
        /\ stored Entries
             (demo_world {[ "quizID" := "Q1"; "entryID" := "E1" ]}) e).
Proof.
  assert (Hrows : exists q e,
        cookieJar (demo_world {[ "quizID" := "Q1"; "entryID" := "E1" ]})
          !! "quizID" = Some (Quiz.id q)
        /\ stored Quizes
             (demo_world {[ "quizID" := "Q1"; "entryID" := "E1" ]}) q
        /\ cookieJar (demo_world {[ "quizID" := "Q1"; "entryID" := "E1" ]})
             !! "entryID" = Some (Entry.id e)
        /\ stored Entries
             (demo_world {[ "quizID" := "Q1"; "entryID" := "E1" ]}) e).
  { exists demo_quiz, demo_entry.
    split; [reflexivity|]. split; [apply demo_quiz_stored|].
    split; [reflexivity | apply demo_entry_stored]. }
  destruct (quizProcedure_succeeds_iff tt
              (demo_world {[ "quizID" := "Q1"; "entryID" := "E1" ]}))
    as [Hthere Hback].
  split; [exact (Hback Hrows) | exact (Hthere (Hback Hrows))].
Defined.

(** In the store with doubled ids, the first ["Q1"] and the first ["E1"]
    are attached. *)
Lemma quizProcedure_first_row_wins_witness :
  exists w',
    invoke quizProcedure (ret tt)
      (dup_world {[ "quizID" := "Q1"; "entryID" := "E1" ]}) = (w', inr tt)
    /\ Ctx.quiz (ctx w') = Some (Quiz.mk "Q1" "Algebra")
    /\ Ctx.entry (ctx w') = Some (Entry.mk "E1" "Ada" "Q1" "Lovelace" "3A" 0).
Proof.
  assert (Hq : forall r : Quiz.t, r ∈ [Quiz.mk "Q0" "Warm-up"] ->
               Quiz.id r <> Quiz.id (Quiz.mk "Q1" "Algebra")).
  { intros r Hr. apply list_elem_of_singleton in Hr. subst r. discriminate. }
  assert (He : forall r : Entry.t, r ∈ [] ->
               Entry.id r <>
               Entry.id (Entry.mk "E1" "Ada" "Q1" "Lovelace" "3A" 0)).
  { intros r Hr. inversion Hr. }
  assert (Hcq : cookieJar (dup_world {[ "quizID" := "Q1"; "entryID" := "E1" ]})
                  !! "quizID" = Some (Quiz.id (Quiz.mk "Q1" "Algebra")))
    by reflexivity.
  assert (Hce : cookieJar (dup_world {[ "quizID" := "Q1"; "entryID" := "E1" ]})
                  !! "entryID"
                = Some (Entry.id (Entry.mk "E1" "Ada" "Q1" "Lovelace" "3A" 0)))
    by reflexivity.
  exact (quizProcedure_first_row_wins (ret tt)
           (dup_world {[ "quizID" := "Q1"; "entryID" := "E1" ]})
           [Quiz.mk "Q0" "Warm-up"] [Quiz.mk "Q1" "Geometry"]
           (Quiz.mk "Q1" "Algebra")
           [] [Entry.mk "E1" "Alan" "Q1" "Turing" "3B" 7]
           (Entry.mk "E1" "Ada" "Q1" "Lovelace" "3A" 0)
           eq_refl Hq eq_refl He Hcq Hce).
Defined.

(** Quiz ["Q1"] resolved, entry ["E9"] unknown: the call fails and the
    context keeps the quiz. *)
Lemma quizProcedure_failure_keeps_quiz_witness :
  exists w' err,
    invoke quizProcedure (ret tt)
      (demo_world {[ "quizID" := "Q1"; "entryID" := "E9" ]}) = (w', inl err)
    /\ Ctx.quiz (ctx w') = Some demo_quiz
    /\ Ctx.entry (ctx w') = None.
Proof.
  assert (Hcq : cookieJar (demo_world {[ "quizID" := "Q1"; "entryID" := "E9" ]})
                  !! "quizID" = Some (Quiz.id demo_quiz)) by reflexivity.
  assert (Hce : cookieJar (demo_world {[ "quizID" := "Q1"; "entryID" := "E9" ]})
                  !! "entryID" = Some "E9") by reflexivity.
  assert (N9 : "E9" <> "E1") by discriminate.
  destruct (quizProcedure_failure_keeps_quiz (ret tt) _ demo_quiz Hcq
              (demo_quiz_stored _)
              (or_intror (ex_intro _ "E9"
                            (conj Hce (demo_no_entry _ "E9" N9)))))
    as (w' & err & q' & Hrun & Hquiz & _ & _ & Hpk & Hentry).
  exists w', err. split; [exact Hrun|].
  rewrite Hquiz, (Hpk (demo_primary_key_Quizes _)), Hentry.
  split; reflexivity.
Defined.

(** A successful quiz call, and the quizStart call on the same world. *)
Lemma quizProcedure_implies_quizStart_witness :
  exists w' w'',
    invoke quizProcedure (ret tt)
      (demo_world {[ "quizID" := "Q1"; "entryID" := "E1" ]}) = (w', inr tt)
    /\ invoke quizStartProcedure (ret tt)
         (demo_world {[ "quizID" := "Q1"; "entryID" := "E1" ]}) = (w'', inr tt)
    /\ Ctx.quiz (ctx w'') = Ctx.quiz (ctx w').
Proof.
  eexists.
  assert (Hrun : invoke quizProcedure (ret tt)
                   (demo_world {[ "quizID" := "Q1"; "entryID" := "E1" ]})
                 = (_, inr tt)) by reflexivity.
  destruct (quizProcedure_implies_quizStart tt _ _ Hrun)
    as (w'' & Hstart & Hquiz & _).
  exists w''. split; [exact Hrun|]. split; [exact Hstart | exact Hquiz].
Defined.

(** The context of the deployment is a built one: the resolver gets the
    request, the client and the two rows. *)
Lemma quizProcedure_on_built_context_witness :
  exists w',
    invoke quizProcedure (ret tt)
      (demo_world {[ "quizID" := "Q1"; "entryID" := "E1" ]}) = (w', inr tt)
    /\ ctx w' = Ctx.mk "POST /api/trpc" tt (Some demo_entry) (Some demo_quiz).
Proof.
  assert (Hctx : ctx (demo_world {[ "quizID" := "Q1"; "entryID" := "E1" ]})
                 = createInnerTRPCContext tt
                     {| opts_req := "POST /api/trpc"; opts_entry := None;
                        opts_quiz := None |}) by reflexivity.
  assert (Hcq : cookieJar (demo_world {[ "quizID" := "Q1"; "entryID" := "E1" ]})
                  !! "quizID" = Some (Quiz.id demo_quiz)) by reflexivity.
  assert (Hce : cookieJar (demo_world {[ "quizID" := "Q1"; "entryID" := "E1" ]})
                  !! "entryID" = Some (Entry.id demo_entry)) by reflexivity.
  exact (quizProcedure_on_built_context tt (ret tt)
           (demo_world {[ "quizID" := "Q1"; "entryID" := "E1" ]}) _
           demo_quiz demo_entry Hctx Hcq Hce
           (demo_quiz_stored {[ "quizID" := "Q1"; "entryID" := "E1" ]})
           (demo_entry_stored {[ "quizID" := "Q1"; "entryID" := "E1" ]})
           (demo_primary_key_Quizes {[ "quizID" := "Q1"; "entryID" := "E1" ]})
           (demo_primary_key_Entries
              {[ "quizID" := "Q1"; "entryID" := "E1" ]})).
Defined.

(** A shape that already has a stale ["zodError"]: without a Zod cause the
    key becomes [null] and ["code"] stays; with one it carries the
    issues. *)
Lemma errorFormatter_data_witness :
  Shape.data (errorFormatter demo_flatten
                {| shape := demo_shape; error_cause := CauseOther |})
    !! "code" = Some (JsOther "BAD_REQUEST")
  /\ Shape.data (errorFormatter demo_flatten
                   {| shape := demo_shape; error_cause := CauseOther |})
       !! "zodError" = Some JsNull
  /\ Shape.data (errorFormatter demo_flatten
                   {| shape := demo_shape;
                      error_cause := CauseZodError ["name: Required"] |})
       !! "zodError" = Some (JsFlattened ["name: Required"]).
Proof.
  assert (Hk : "code" <> "zodError") by discriminate.
  destruct (errorFormatter_data demo_flatten
              {| shape := demo_shape; error_cause := CauseOther |})
    as (_ & _ & Hkeep & _ & [_ Hnull] & _).
  destruct (errorFormatter_data demo_flatten
              {| shape := demo_shape;
                 error_cause := CauseZodError ["name: Required"] |})
    as (_ & _ & _ & _ & _ & Hzod).
  split; [|split].
  - rewrite (Hkeep "code" Hk). reflexivity.
  - exact (Hnull eq_refl).
  - exact (Hzod ["name: Required"] eq_refl).
Defined.

(** In production an error coming down is logged, a request going up is
    not. *)
Lemma loggerLink_enabled_iff_witness :
  loggerLink_enabled (Some "production") (OpDown ResultError) = true
  /\ loggerLink_enabled (Some "production") OpUp <> true
  /\ loggerLink_enabled None (OpDown ResultData) <> true.
Proof.
  split; [|split].
  - apply (loggerLink_enabled_iff (Some "production") (OpDown ResultError)).
    right. reflexivity.
  - intros H.
    apply (loggerLink_enabled_iff (Some "production") OpUp) in H.
    destruct H as [H|H]; discriminate.
  - intros H.
    apply (loggerLink_enabled_iff None (OpDown ResultData)) in H.
    destruct H as [H|H]; discriminate.
Defined.
